(** * messagely: the User model, the message routes and the auth routes

    A shallow embedding of [models/user.js], [routes/messages.js] and
    [routes/auth.js].  SQL statements are functions on an in-memory copy of
    the two tables, [async] functions are computations in a state-and-error
    monad whose state is the database, and the rows handed back by the
    database client are JavaScript objects (ordered property lists). *)

From stdpp Require Import base decidable option list strings sorting.
From Stdlib Require Import ZArith Lia.

Set Warnings "-register-all".

(** ** JavaScript values *)

Inductive jsval : Type :=
| JUndefined
| JNull
| JBool (b : bool)
| JNum (n : Z)
| JStr (s : string)
| JDate (t : Z)
| JObj (props : list (string * jsval))
| JOpaque (name : string).

(** [JOpaque] stands for a function or a host object (a module, [res],
    [next]) that the model never looks into. *)

(** An object: its own properties, in insertion order. *)
Definition obj : Type := list (string * jsval).

Fixpoint own (o : obj) (k : string) : option jsval :=
  match o with
  | [] => None
  | (k', v) :: o' => if bool_decide (k' = k) then Some v else own o' k
  end.

(** [o.k]: reading a property the object lacks yields [undefined]. *)
Definition prop (o : obj) (k : string) : jsval := default JUndefined (own o k).

Definition keys (o : obj) : list string := fst <$> o.

(** A nullable timestamp column as the client delivers it. *)
Definition nullable_date (t : option Z) : jsval := from_option JDate JNull t.

(** ** Errors *)

Inductive error : Type :=
| ExpressError (message : string) (status : Z)
| ConflictError (constraint : string)
| ReferenceError (name : string)
| TypeError (message : string)
| JsError (message : string).

(** ** The database *)

Module users.
Record row : Type := Row {
  username : string;
  password : string;
  first_name : string;
  last_name : string;
  phone : string;
  join_at : Z;
  last_login_at : option Z
}.
End users.

Module messages.
Record row : Type := Row {
  id : Z;
  from_username : string;
  to_username : string;
  body : string;
  sent_at : Z;
  read_at : option Z
}.
End messages.

(** Modelled from the spec: the schema file and the [db] module are not part
    of the sources; the spec gives two tables,
    [users(username PK, password, first_name, last_name, phone, join_at,
    last_login_at)] and [messages(id PK, from_username FK, to_username FK,
    body, sent_at, read_at)]. *)
Record db : Type := Db {
  tbl_users : list users.row;
  tbl_messages : list messages.row
}.

Definition usernames (s : db) : list string := users.username <$> tbl_users s.

(** The constraints of the schema: both primary keys and both foreign keys. *)
Record wf_db (s : db) : Prop := {
  wf_users_pkey : NoDup (usernames s);
  wf_messages_pkey : NoDup (messages.id <$> tbl_messages s);
  wf_from_fkey : Forall (λ m, messages.from_username m ∈ usernames s) (tbl_messages s);
  wf_to_fkey : Forall (λ m, messages.to_username m ∈ usernames s) (tbl_messages s)
}.

(** ** Asynchronous computations over the database

    A rejected promise keeps the database as the statements run so far left
    it: nothing is rolled back. *)

Definition M (A : Type) : Type := db → (error + A) * db.

Definition ret {A} (a : A) : M A := λ s, (inr a, s).
Definition throw {A} (e : error) : M A := λ s, (inl e, s).
Definition bind {A B} (m : M A) (k : A → M B) : M B := λ s,
  match m s with
  | (inl e, s') => (inl e, s')
  | (inr a, s') => k a s'
  end.

Notation "x ←await m ;; k" := (bind m (λ x, k))
  (at level 100, m at next level, right associativity,
   format "'[v' x  ←await  m  ;;  '/' k ']'").
Notation "'await' m ;; k" := (bind m (λ _, k))
  (at level 100, m at next level, right associativity).

(** ** SQL statements, one definition per [db.query] of the model

    Modelled from the spec: the relational engine is an external
    collaborator that runs each statement atomically; the primary key of
    [users] rejects an insertion under a username the table already holds,
    and [current_timestamp] is the reading of the clock passed as [now]. *)

Module sql.

(** [INSERT INTO users (username, password, first_name, last_name, phone,
    join_at) VALUES ($1, $2, $3, $4, $5, current_timestamp)
    RETURNING username] *)
Definition insert_user (now : Z) (username password first_name last_name phone : string)
  : M (list obj) := λ s,
  if bool_decide (username ∈ usernames s)
  then (inl (ConflictError "users_pkey"), s)
  else (inr [ [("username", JStr username)] ],
        Db (tbl_users s ++ [users.Row username password first_name last_name phone now None])
           (tbl_messages s)).

(** [SELECT password FROM users WHERE username = $1] *)
Definition select_password (username : string) : M (list obj) := λ s,
  (inr ((λ u, [("password", JStr (users.password u))]) <$>
          filter (λ u, users.username u = username) (tbl_users s)), s).

Definition set_last_login (now : Z) (username : string) (u : users.row) : users.row :=
  if bool_decide (users.username u = username)
  then users.Row (users.username u) (users.password u) (users.first_name u)
                 (users.last_name u) (users.phone u) (users.join_at u) (Some now)
  else u.

(** [UPDATE users SET last_login_at = current_timestamp WHERE username = $1
    RETURNING username] *)
Definition update_last_login (now : Z) (username : string) : M (list obj) := λ s,
  (inr ((λ u, [("username", JStr (users.username u))]) <$>
          filter (λ u, users.username u = username) (tbl_users s)),
   Db (set_last_login now username <$> tbl_users s) (tbl_messages s)).

Definition basic_info (u : users.row) : obj :=
  [("first_name", JStr (users.first_name u));
   ("last_name", JStr (users.last_name u));
   ("phone", JStr (users.phone u))].

Definition by_first_name (collate : relation string) : relation users.row :=
  λ u v, collate (users.first_name u) (users.first_name v).

Global Instance by_first_name_dec (collate : relation string) `{!RelDecision collate} :
  RelDecision (by_first_name collate).
Proof. intros u v. unfold by_first_name. apply _. Defined.

(** [SELECT first_name, last_name, phone FROM users ORDER BY first_name],
    the order being that of the database's collation. *)
Definition select_all_users (collate : relation string) `{!RelDecision collate}
  : M (list obj) := λ s,
  (inr (basic_info <$> merge_sort (by_first_name collate) (tbl_users s)), s).

Definition profile (u : users.row) : obj :=
  [("username", JStr (users.username u));
   ("first_name", JStr (users.first_name u));
   ("last_name", JStr (users.last_name u));
   ("phone", JStr (users.phone u));
   ("join_at", JDate (users.join_at u));
   ("last_login_at", nullable_date (users.last_login_at u))].

(** [SELECT username, first_name, last_name, phone, join_at, last_login_at
    FROM users WHERE username = $1] *)
Definition select_user (username : string) : M (list obj) := λ s,
  (inr (profile <$> filter (λ u, users.username u = username) (tbl_users s)), s).

(** The rows of [messages AS m JOIN users AS u ON on m u], in the order of
    a nested loop over the two tables. *)
Definition join (on : messages.row → users.row → bool) (s : db)
  : list (messages.row * users.row) :=
  m ← tbl_messages s; u ← tbl_users s; if on m u then [(m, u)] else [].

(** [SELECT m.id, m.from_username, u.first_name AS from_first_name,
    u.last_name AS from_last_name, u.phone AS from_phone, m.body, m.sent_at,
    m.read_at FROM messages as m JOIN users AS u
    ON m.from_username = u.username WHERE m.from_username = $1] *)
Definition from_row (mu : messages.row * users.row) : obj :=
  let (m, u) := mu in
  [("id", JNum (messages.id m));
   ("from_username", JStr (messages.from_username m));
   ("from_first_name", JStr (users.first_name u));
   ("from_last_name", JStr (users.last_name u));
   ("from_phone", JStr (users.phone u));
   ("body", JStr (messages.body m));
   ("sent_at", JDate (messages.sent_at m));
   ("read_at", nullable_date (messages.read_at m))].

Definition select_messages_from (username : string) : M (list obj) := λ s,
  (inr (from_row <$>
          filter (λ mu, messages.from_username mu.1 = username)
            (join (λ m u, bool_decide (messages.from_username m = users.username u)) s)),
   s).

(** [SELECT m.id, m.to_username, u.first_name AS to_first_name,
    u.last_name AS to_last_name, u.phone AS to_phone, m.body, m.sent_at,
    m.read_at FROM messages AS m JOIN users AS u
    ON m.to_username = u.username WHERE m.to_username = $1] *)
Definition to_row (mu : messages.row * users.row) : obj :=
  let (m, u) := mu in
  [("id", JNum (messages.id m));
   ("to_username", JStr (messages.to_username m));
   ("to_first_name", JStr (users.first_name u));
   ("to_last_name", JStr (users.last_name u));
   ("to_phone", JStr (users.phone u));
   ("body", JStr (messages.body m));
   ("sent_at", JDate (messages.sent_at m));
   ("read_at", nullable_date (messages.read_at m))].

Definition select_messages_to (username : string) : M (list obj) := λ s,
  (inr (to_row <$>
          filter (λ mu, messages.to_username mu.1 = username)
            (join (λ m u, bool_decide (messages.to_username m = users.username u)) s)),
   s).

End sql.

(** ** The User model: [models/user.js] *)

(** The body of a registration request, destructured by [User.register]. *)
Module reg.
Record body : Type := Body {
  username : string;
  password : string;
  first_name : string;
  last_name : string;
  phone : string
}.
End reg.

Module User.
Section model.

(** The configuration and the bcrypt library are outside the sources: the
    work factor is a constant of the process, [bcrypt.hash] is a function
    of the data, the rounds and the salt it draws, [bcrypt.compare] tells
    whether a string hashes to the stored value. *)
Context (BCRYPT_WORK_FACTOR : Z).
Context (bcrypt_hash : string → Z → string → string).
Context (bcrypt_compare : string → string → bool).

(** [bcrypt.compare(data, hash)].  The library compares two strings only:
    with an argument that is [undefined] or [null] its promise is rejected
    with the plain error "data and hash arguments required", with any other
    argument that is not a string with "data and hash must be strings".
    ([JOpaque] values are never handed to it.) *)
Definition compare (data hash : jsval) : M bool :=
  match data, hash with
  | JStr d, JStr h => ret (bcrypt_compare d h)
  | JUndefined, _ | JNull, _ | _, JUndefined | _, JNull =>
      throw (JsError "data and hash arguments required")
  | _, _ => throw (JsError "data and hash must be strings")
  end.

Definition register (now : Z) (salt : string) (b : reg.body) : M (option obj) :=
  let hashedPassword := bcrypt_hash (reg.password b) BCRYPT_WORK_FACTOR salt in
  result ←await sql.insert_user now (reg.username b) hashedPassword
                  (reg.first_name b) (reg.last_name b) (reg.phone b) ;;
  ret (result !! 0%nat).

Definition authenticate (username : string) (password : jsval) : M bool :=
  result ←await sql.select_password username ;;
  let user := result !! 0%nat in
  success ←await match user with
                 | Some user => compare password (prop user "password")
                 | None => ret false
                 end ;;
  if success then ret true
  else throw (ExpressError "Invalid username/password" 400).

Definition updateLoginTimestamp (now : Z) (username : string) : M unit :=
  result ←await sql.update_last_login now username ;;
  match result !! 0%nat with
  | None => throw (ExpressError ("There is no user with username: " +:+ username) 404)
  | Some _ => ret tt
  end.

Definition all (collate : relation string) `{!RelDecision collate} : M (list obj) :=
  result ←await sql.select_all_users collate ;;
  ret result.

Definition get (username : string) : M (option obj) :=
  result ←await sql.select_user username ;;
  if bool_decide (length result = 0%nat)
  then throw (ExpressError ("There is no user with username " +:+ username) 404)
  else ret (result !! 0%nat).

Definition messagesFrom (username : string) : M obj :=
  result ←await sql.select_messages_from username ;;
  match result !! 0%nat with
  | None => throw (ExpressError ("There are no messages from " +:+ username) 404)
  | Some m =>
      ret [("id", prop m "id");
           ("from_user", JObj [("username", prop m "from_username");
                               ("first_name", prop m "from_first_name");
                               ("last_name", prop m "from_last_name");
                               ("phone", prop m "from_phone")]);
           ("body", prop m "body");
           ("sent_at", prop m "sent_at");
           ("read_at", prop m "read_at")]
  end.

Definition messagesTo (username : string) : M obj :=
  result ←await sql.select_messages_to username ;;
  match result !! 0%nat with
  | None =>
      throw (ExpressError
               ("There are no messages to user with username: " +:+ username) 404)
  | Some m =>
      ret [("id", prop m "id");
           ("to_user", JObj [("username", prop m "to_username");
                             ("first_name", prop m "to_first_name");
                             ("last_name", prop m "to_last_name");
                             ("phone", prop m "phone")]);
           ("body", prop m "body");
           ("sent_at", prop m "sent_at");
           ("read_at", prop m "read_at")]
  end.

End model.
End User.

(** ** The Message model *)

Module Message.

Definition participant (u : users.row) : jsval :=
  JObj [("username", JStr (users.username u));
        ("first_name", JStr (users.first_name u));
        ("last_name", JStr (users.last_name u));
        ("phone", JStr (users.phone u))].

Definition detail (m : messages.row) (f t : users.row) : obj :=
  [("id", JNum (messages.id m));
   ("body", JStr (messages.body m));
   ("sent_at", JDate (messages.sent_at m));
   ("read_at", nullable_date (messages.read_at m));
   ("from_user", participant f);
   ("to_user", participant t)].

(** Modelled from the spec: [models/message.js] is not part of the sources.
    [get(id)] "returns the full message with both from_user and to_user
    expanded to {username, first_name, last_name, phone} via a join. Fails
    with NotFoundError if the id does not exist"; who may view the message
    is left to the caller.  The text of the error is not given by the spec. *)
Definition get (id : Z) : M obj := λ s,
  match
    m ← filter (λ m, messages.id m = id) (tbl_messages s);
    f ← filter (λ u, users.username u = messages.from_username m) (tbl_users s);
    t ← filter (λ u, users.username u = messages.to_username m) (tbl_users s);
    [detail m f t]
  with
  | message :: _ => (inr message, s)
  | [] => (inl (ExpressError "No such message" 404), s)
  end.

End Message.

(** ** Express plumbing *)

(** What a handler leaves behind: a JSON body sent with [res.json], an error
    handed to [next], or nothing at all when it returns without doing
    either, in which case the request stays unanswered. *)
Inductive response : Type :=
| Json (body : obj)
| Next (err : error)
| Unanswered.

Definition handler : Type := db → response * db.

(** [try { ... } catch (err) { return next(err); }] *)
Definition try_catch (body : M response) : handler := λ s,
  match body s with
  | (inl err, s') => (Next err, s')
  | (inr r, s') => (r, s')
  end.

(** Evaluating an identifier: the enclosing scopes first, then the global
    object; a name bound nowhere is a [ReferenceError]. *)
Definition resolve (scope globals : obj) (x : string) : M jsval :=
  match own scope x with
  | Some v => ret v
  | None =>
      match own globals x with
      | Some v => ret v
      | None => throw (ReferenceError (x +:+ " is not defined"))
      end
  end.

(** ** [routes/messages.js] *)

Module messages_routes.

Record request : Type := Request {
  user : option obj;
  params_id : Z;
  body : obj
}.

Section routes.

(** [middleware/auth.js] is outside the sources: the middleware either lets
    the request through or hands an error to [next].  [models/message.js] is
    outside the sources too: the handlers are written over any [get], of
    which they pass the id and nothing else. *)
Context (ensureLoggedIn : request → option error).
Context (Message_get : Z → M obj).
Context (Message_create : jsval → jsval → jsval → M obj).

Definition guarded (h : request → handler) (req : request) : handler := λ s,
  match ensureLoggedIn req with
  | Some err => (Next err, s)
  | None => h req s
  end.

(** [router.get("/:id", ensureLoggedIn, ...)] *)
Definition get_id : request → handler :=
  guarded (λ req, try_catch (
    message ←await Message_get (params_id req) ;;
    ret (Json [("message", JObj message)]))).

(** [req.user.username]: reading a property of [undefined] throws. *)
Definition user_username (req : request) : M jsval :=
  match user req with
  | None => throw (TypeError "Cannot read properties of undefined (reading 'username')")
  | Some u => ret (prop u "username")
  end.

(** [router.post("/", ensureLoggedIn, ...)] *)
Definition post_message : request → handler :=
  guarded (λ req, try_catch (
    fromUsername ←await user_username req ;;
    message ←await Message_create fromUsername (prop (body req) "to_username")
                     (prop (body req) "body") ;;
    ret (Json [("message", JObj message)]))).

(** [router.post("/:id/read", ensureLoggedIn, ...)]: the [try] block is
    empty. *)
Definition post_id_read : request → handler :=
  guarded (λ req, try_catch (ret Unanswered)).

End routes.
End messages_routes.

(** ** [routes/auth.js] *)

(** The body of a login request: whatever the client put under [password],
    or [undefined], reaches [User.authenticate] as it is. *)
Module login.
Record body : Type := Body {
  username : string;
  password : jsval
}.
End login.

Module auth_routes.
Section routes.

Context (BCRYPT_WORK_FACTOR : Z).
Context (bcrypt_hash : string → Z → string → string).
Context (bcrypt_compare : string → string → bool).
(** The signing secret of the process, [jwt.sign(payload, secret)], which
    may throw, and the properties of the global object. *)
Context (SECRET_KEY : string).
Context (jwt_sign : obj → string → error + string).
Context (globals : obj).

Definition sign (payload : obj) (secret : string) : M string := λ s,
  (jwt_sign payload secret, s).

(** The [const] bindings at the top of the module. *)
Definition module_scope : obj :=
  [("express", JOpaque "express");
   ("router", JOpaque "router");
   ("bcrypt", JOpaque "bcrypt");
   ("jwt", JOpaque "jwt");
   ("ExpressError", JOpaque "ExpressError");
   ("db", JOpaque "db");
   ("User", JOpaque "User");
   ("SECRET_KEY", JStr SECRET_KEY)].

Definition handler_scope (req : jsval) : obj :=
  [("req", req); ("res", JOpaque "res"); ("next", JOpaque "next")].

Definition login_req (b : login.body) : jsval :=
  JObj [("body", JObj [("username", JStr (login.username b));
                       ("password", login.password b)])].

(** [router.post("/login", ...)] *)
Definition post_login (now : Z) (b : login.body) : handler :=
  try_catch (
    let username := login.username b in
    let password := login.password b in
    let scope := [("username", JStr username); ("password", password)]
                   ++ handler_scope (login_req b) ++ module_scope in
    login ←await User.authenticate bcrypt_compare username password ;;
    if login then
      claim ←await resolve scope globals "username" ;;
      token ←await sign [("username", claim)] SECRET_KEY ;;
      await User.updateLoginTimestamp now username ;;
      ret (Json [("token", JStr token)])
    else ret Unanswered).

Definition register_req (b : reg.body) : jsval :=
  JObj [("body", JObj [("username", JStr (reg.username b));
                       ("password", JStr (reg.password b));
                       ("first_name", JStr (reg.first_name b));
                       ("last_name", JStr (reg.last_name b));
                       ("phone", JStr (reg.phone b))])].

(** [result.username], as the text parameter of the next statement.  The
    row returned by the insertion always carries a string. *)
Definition result_username (result : option obj) : M string :=
  match result with
  | None => throw (TypeError "Cannot read properties of undefined (reading 'username')")
  | Some r =>
      match prop r "username" with
      | JStr u => ret u
      | _ => throw (JsError "username is not a string")
      end
  end.

(** [router.post("/register", ...)].  The handler binds [result] and
    [token] only: the [username] of [{username}] is looked up in the
    scopes like any other identifier. *)
Definition post_register (now_join now_login : Z) (salt : string) (b : reg.body)
  : handler :=
  try_catch (
    result ←await User.register BCRYPT_WORK_FACTOR bcrypt_hash now_join salt b ;;
    let scope := [("result", from_option JObj JUndefined result)]
                   ++ handler_scope (register_req b) ++ module_scope in
    claim ←await resolve scope globals "username" ;;
    token ←await sign [("username", claim)] SECRET_KEY ;;
    username ←await result_username result ;;
    await User.updateLoginTimestamp now_login username ;;
    ret (Json [("token", JStr token)])).

End routes.
End auth_routes.

(** ** A sample database *)

Module sample.

Definition alice : users.row :=
  users.Row "alice" "$2b$12$hash-of-wonderland" "Alice" "Liddell" "555-0100" 10 None.
Definition bob : users.row :=
  users.Row "bob" "$2b$12$hash-of-builder" "Bob" "Stone" "555-0101" 20 (Some 25%Z).
Definition carol : users.row :=
  users.Row "carol" "$2b$12$hash-of-christmas" "Carol" "Reed" "555-0102" 30 None.

(** Message 1 goes from alice to bob; carol takes no part in it. *)
Definition hello : messages.row := messages.Row 1 "alice" "bob" "hello" 40 None.

Definition store : db := Db [bob; carol; alice] [hello].

Definition dave : reg.body := reg.Body "dave" "hunter2" "Dave" "Hill" "555-0103".

(** A stand-in for bcrypt on which the sample hashes verify. *)
Definition hash (data : string) (rounds : Z) (salt : string) : string :=
  "$2b$12$hash-of-" +:+ data.
Definition compare (data hash : string) : bool :=
  bool_decide (hash = "$2b$12$hash-of-" +:+ data).

Definition jwt_sign (payload : obj) (secret : string) : error + string :=
  match payload with
  | [("username", JStr u)] => inr (u +:+ "." +:+ secret)
  | _ => inl (JsError "payload")
  end.

Definition logged_in (req : messages_routes.request) : option error :=
  match messages_routes.user req with
  | Some _ => None
  | None => Some (ExpressError "Unauthorized" 401)
  end.

Definition as_user (username : string) (id : Z) : messages_routes.request :=
  messages_routes.Request (Some [("username", JStr username)]) id [].

(** A stand-in for [Message.create] that echoes what it is handed. *)
Definition create (fromUsername toUsername body : jsval) : M obj := λ s,
  (inr [("from_username", fromUsername); ("to_username", toUsername); ("body", body)], s).

End sample.

(** ** Reading the tables *)

(** The row the [users] table holds for a username. *)
Definition stored (s : db) (username : string) : option users.row :=
  filter (λ u, users.username u = username) (tbl_users s) !! 0%nat.

(** The [last_login_at] column of that row; [Some None] is SQL's [NULL]. *)
Definition stored_last_login (s : db) (username : string) : option (option Z) :=
  users.last_login_at <$> stored s username.

Definition invalid_credentials : error := ExpressError "Invalid username/password" 400.

(** What [bcrypt.compare] makes of the password of a request and a stored
    hash: a verdict, or the error it rejects the password with. *)
Definition bcrypt_verdict (bcrypt_compare : string → string → bool)
    (password : jsval) (hash : string) : error + bool :=
  match password with
  | JStr p => inr (bcrypt_compare p hash)
  | JUndefined | JNull => inl (JsError "data and hash arguments required")
  | _ => inl (JsError "data and hash must be strings")
  end.

(** Two records of [all()] whose [first_name]s are in ascending order. *)
Definition first_name_ascending (collate : relation string) (a b : obj) : Prop :=
  ∃ x y, prop a "first_name" = JStr x ∧ prop b "first_name" = JStr y ∧ collate x y.

(** The row a registration adds to [users]. *)
Definition registered (BCRYPT_WORK_FACTOR : Z) (bcrypt_hash : string → Z → string → string)
    (now : Z) (salt : string) (b : reg.body) : users.row :=
  users.Row (reg.username b) (bcrypt_hash (reg.password b) BCRYPT_WORK_FACTOR salt)
            (reg.first_name b) (reg.last_name b) (reg.phone b) now None.

(** * Properties *)

(** ** Rows selected by [WHERE username = $1] *)

Section by_username.
Implicit Types (l : list users.row) (u : users.row) (x : string).

Lemma filter_username_absent l x :
  x ∉ users.username <$> l → filter (λ u, users.username u = x) l = [].
Proof.
  induction l as [|v l IH]; [done|].
  rewrite fmap_cons, not_elem_of_cons. intros [Hne Hl].
  rewrite filter_cons_False by congruence. auto.
Qed.

Lemma filter_username_unique l u :
  NoDup (users.username <$> l) → u ∈ l →
  filter (λ v, users.username v = users.username u) l = [u].
Proof.
  induction l as [|v l IH]; intros Hnd Hin.
  - by apply elem_of_nil in Hin.
  - rewrite fmap_cons in Hnd. apply NoDup_cons in Hnd as [Hv Hnd].
    apply elem_of_cons in Hin as [->|Hin].
    + rewrite filter_cons_True by done.
      by rewrite filter_username_absent.
    + rewrite filter_cons_False; [by apply IH|].
      intros Heq. apply Hv. rewrite Heq. by apply list_elem_of_fmap_2.
Qed.

Lemma filter_username_head l x u :
  filter (λ v, users.username v = x) l !! 0%nat = Some u →
  u ∈ l ∧ users.username u = x.
Proof.
  intros H. apply list_elem_of_lookup_2 in H.
  apply list_elem_of_filter in H. tauto.
Qed.

Lemma filter_username_present l x :
  x ∈ users.username <$> l →
  ∃ u, filter (λ v, users.username v = x) l !! 0%nat = Some u ∧ users.username u = x.
Proof.
  induction l as [|v l IH]; [by intros ?%elem_of_nil|].
  rewrite fmap_cons, elem_of_cons. intros Hin.
  destruct (decide (users.username v = x)) as [Heq|Hne].
  - exists v. by rewrite filter_cons_True.
  - rewrite filter_cons_False by done. destruct Hin as [->|Hin]; [done|auto].
Qed.

End by_username.

(** ** [User.authenticate] *)

Lemma stored_is_Some s username :
  username ∈ usernames s → ∃ u, stored s username = Some u ∧ users.username u = username.
Proof. apply filter_username_present. Qed.

Lemma stored_is_None s username : username ∉ usernames s → stored s username = None.
Proof. intros H. unfold stored. by rewrite filter_username_absent. Qed.

Lemma compare_verdict bcrypt_compare password hash s :
  User.compare bcrypt_compare password (JStr hash) s
  = (bcrypt_verdict bcrypt_compare password hash, s).
Proof. by destruct password. Qed.

(** The course of [authenticate], read on the first row the table holds for
    the username. *)
Lemma authenticate_run bcrypt_compare username password s :
  User.authenticate bcrypt_compare username password s =
  match stored s username with
  | Some u =>
      match bcrypt_verdict bcrypt_compare password (users.password u) with
      | inl err => (inl err, s)
      | inr true => (inr true, s)
      | inr false => (inl invalid_credentials, s)
      end
  | None => (inl invalid_credentials, s)
  end.
Proof.
  unfold User.authenticate, sql.select_password, bind, stored; simpl.
  rewrite list_lookup_fmap.
  destruct (filter _ (tbl_users s) !! 0%nat) as [u|]; simpl; [|done].
  unfold prop; simpl. rewrite compare_verdict.
  by destruct (bcrypt_verdict _ _ _) as [err|[|]].
Qed.

Lemma authenticate_first_row bcrypt_compare username password s :
  User.authenticate bcrypt_compare username (JStr password) s =
  match filter (λ u, users.username u = username) (tbl_users s) !! 0%nat with
  | Some u =>
      if bcrypt_compare password (users.password u)
      then (inr true, s) else (inl invalid_credentials, s)
  | None => (inl invalid_credentials, s)
  end.
Proof.
  rewrite authenticate_run. unfold stored.
  destruct (filter _ (tbl_users s) !! 0%nat) as [u|]; simpl; [|done].
  by destruct (bcrypt_compare _ _).
Qed.

(** With a password that is a string, and on a database that satisfies its
    constraints, [authenticate] returns [true] exactly when a user with
    that name exists and the password verifies against the stored hash; in
    every other case it throws one and the same error, "Invalid
    username/password" with status 400, whether the user is missing or the
    password is wrong.  The database is left as it was. *)
Lemma authenticate_string_password bcrypt_compare s username password :
  wf_db s →
  (User.authenticate bcrypt_compare username (JStr password) s = (inr true, s)
   ↔ ∃ u, u ∈ tbl_users s ∧ users.username u = username
          ∧ bcrypt_compare password (users.password u) = true)
  ∧ (username ∉ usernames s →
     User.authenticate bcrypt_compare username (JStr password) s
     = (inl (ExpressError "Invalid username/password" 400), s))
  ∧ (∀ u, u ∈ tbl_users s → users.username u = username →
          bcrypt_compare password (users.password u) = false →
     User.authenticate bcrypt_compare username (JStr password) s
     = (inl (ExpressError "Invalid username/password" 400), s))
  ∧ (∀ r s', User.authenticate bcrypt_compare username (JStr password) s = (r, s') →
       s' = s ∧ (r = inr true ∨ r = inl (ExpressError "Invalid username/password" 400))).
Proof.
  intros [Hpk _ _ _]. rewrite authenticate_first_row. repeat split.
  - destruct (filter _ _ !! 0%nat) as [u|] eqn:Hrow; [|done].
    apply filter_username_head in Hrow as [Hin Hu].
    destruct (bcrypt_compare password (users.password u)) eqn:Hc; [eauto|done].
  - intros (u & Hin & <- & Hc).
    by rewrite (filter_username_unique _ u Hpk Hin); simpl; rewrite Hc.
  - intros Habs. by rewrite filter_username_absent.
  - intros u Hin <- Hc.
    by rewrite (filter_username_unique _ u Hpk Hin); simpl; rewrite Hc.
  - destruct (filter _ _ !! 0%nat) as [u|]; [destruct (bcrypt_compare _ _)|];
      congruence.
  - destruct (filter _ _ !! 0%nat) as [u|]; [destruct (bcrypt_compare _ _)|];
      simplify_eq; auto.
Qed.

(** With a password that [bcrypt.compare] rejects, what [authenticate]
    throws tells whether the username is registered: the error of the
    library when it is, "Invalid username/password" when it is not. *)
Lemma authenticate_rejected_password bcrypt_compare s username password err :
  (∀ hash, bcrypt_verdict bcrypt_compare password hash = inl err) →
  (username ∈ usernames s →
   User.authenticate bcrypt_compare username password s = (inl err, s))
  ∧ (username ∉ usernames s →
     User.authenticate bcrypt_compare username password s
     = (inl (ExpressError "Invalid username/password" 400), s)).
Proof.
  intros Hrejected. rewrite authenticate_run. split.
  - intros (u & -> & _)%stored_is_Some. by rewrite Hrejected.
  - intros Hout. by rewrite stored_is_None.
Qed.

Lemma sample_store_wf : wf_db sample.store.
Proof.
  split; simpl.
  - unfold usernames; simpl. compute_done.
  - compute_done.
  - repeat constructor; unfold usernames; simpl; compute_done.
  - repeat constructor; unfold usernames; simpl; compute_done.
Defined.

(** C4.  A login request without a password, on the sample database.  For
    alice, who is registered, [authenticate] throws the plain error of
    [bcrypt.compare], "data and hash arguments required"; for zed, who is
    not, it throws "Invalid username/password" with status 400.  [POST
    /login] hands each error to [next] as it is, so the two causes of
    failure are told apart. *)
Theorem authenticate_without_password_tells_users_apart
    bcrypt_compare SECRET_KEY jwt_sign (globals : obj) now :
  User.authenticate bcrypt_compare "alice" JUndefined sample.store
  = (inl (JsError "data and hash arguments required"), sample.store)
  ∧ User.authenticate bcrypt_compare "zed" JUndefined sample.store
    = (inl (ExpressError "Invalid username/password" 400), sample.store)
  ∧ auth_routes.post_login bcrypt_compare SECRET_KEY jwt_sign globals now
      (login.Body "alice" JUndefined) sample.store
    = (Next (JsError "data and hash arguments required"), sample.store)
  ∧ auth_routes.post_login bcrypt_compare SECRET_KEY jwt_sign globals now
      (login.Body "zed" JUndefined) sample.store
    = (Next (ExpressError "Invalid username/password" 400), sample.store).
Proof.
  assert (User.authenticate bcrypt_compare "alice" JUndefined sample.store
          = (inl (JsError "data and hash arguments required"), sample.store)) as Halice.
  { apply (authenticate_rejected_password bcrypt_compare sample.store "alice"
             JUndefined); [done|compute_done]. }
  assert (User.authenticate bcrypt_compare "zed" JUndefined sample.store
          = (inl (ExpressError "Invalid username/password" 400), sample.store)) as Hzed.
  { apply (authenticate_rejected_password bcrypt_compare sample.store "zed"
             JUndefined (JsError "data and hash arguments required"));
      [done|compute_done]. }
  split; [exact Halice|]. split; [exact Hzed|].
  unfold auth_routes.post_login, try_catch, bind.
  cbn [login.username login.password]. by rewrite Halice, Hzed.
Qed.

(** ** [User.updateLoginTimestamp] *)

Section update_last_login.
Context (now : Z) (username : string).
Implicit Types (l : list users.row) (u : users.row) (x : string).

Lemma set_last_login_username u :
  users.username (sql.set_last_login now username u) = users.username u.
Proof. unfold sql.set_last_login. by case_bool_decide. Qed.

Lemma set_last_login_hit u :
  users.username u = username →
  users.last_login_at (sql.set_last_login now username u) = Some now.
Proof. intros H. unfold sql.set_last_login. by rewrite bool_decide_eq_true_2. Qed.

Lemma set_last_login_miss u :
  users.username u ≠ username → sql.set_last_login now username u = u.
Proof. intros H. unfold sql.set_last_login. by rewrite bool_decide_eq_false_2. Qed.

Lemma filter_set_last_login x l :
  filter (λ u, users.username u = x) (sql.set_last_login now username <$> l)
  = sql.set_last_login now username <$> filter (λ u, users.username u = x) l.
Proof.
  induction l as [|v l IH]; [done|]. rewrite fmap_cons.
  destruct (decide (users.username v = x)) as [Heq|Hne].
  - rewrite !filter_cons_True, fmap_cons, IH;
      [done|done|by rewrite set_last_login_username].
  - rewrite !filter_cons_False; [done|done|by rewrite set_last_login_username].
Qed.

Lemma set_last_login_absent l :
  username ∉ users.username <$> l → sql.set_last_login now username <$> l = l.
Proof.
  induction l as [|v l IH]; [done|].
  rewrite !fmap_cons, not_elem_of_cons. intros [Hne Hl].
  rewrite set_last_login_miss by congruence. by rewrite IH.
Qed.

Lemma stored_update l ms x :
  stored (Db (sql.set_last_login now username <$> l) ms) x
  = sql.set_last_login now username <$> stored (Db l ms) x.
Proof. unfold stored; simpl. by rewrite filter_set_last_login, list_lookup_fmap. Qed.

Lemma updateLoginTimestamp_run s :
  User.updateLoginTimestamp now username s =
  match stored s username with
  | Some _ =>
      (inr (), Db (sql.set_last_login now username <$> tbl_users s) (tbl_messages s))
  | None =>
      (inl (ExpressError ("There is no user with username: " +:+ username) 404),
       Db (sql.set_last_login now username <$> tbl_users s) (tbl_messages s))
  end.
Proof.
  unfold User.updateLoginTimestamp, sql.update_last_login, bind, stored; simpl.
  rewrite list_lookup_fmap. by destruct (filter _ _ !! 0%nat).
Qed.

End update_last_login.

(** C6.  For a username the table holds, [updateLoginTimestamp] succeeds and
    leaves the time of the call in that user's [last_login_at]; a further
    call made at a later reading of the clock succeeds too and replaces the
    value by a strictly greater one.  For a username the table does not hold
    it throws "There is no user with username: ..." with status 404 and the
    database is left exactly as it was. *)
Theorem updateLoginTimestamp_sets_now_and_increases s username :
  (username ∈ usernames s →
   ∀ t1, ∃ s1,
     User.updateLoginTimestamp t1 username s = (inr (), s1)
     ∧ stored_last_login s1 username = Some (Some t1)
     ∧ ∀ t2, (t1 < t2)%Z → ∃ s2,
         User.updateLoginTimestamp t2 username s1 = (inr (), s2)
         ∧ stored_last_login s2 username = Some (Some t2)
         ∧ ∃ before after,
             stored_last_login s1 username = Some (Some before)
             ∧ stored_last_login s2 username = Some (Some after)
             ∧ (before < after)%Z)
  ∧ (username ∉ usernames s →
     ∀ now,
       User.updateLoginTimestamp now username s
       = (inl (ExpressError ("There is no user with username: " +:+ username) 404), s)).
Proof.
  split.
  - intros Hin t1. apply stored_is_Some in Hin as (u & Hu & Hname).
    destruct s as [us ms]. eexists.
    rewrite updateLoginTimestamp_run, Hu; simpl. split; [done|].
    assert (stored_last_login (Db (sql.set_last_login t1 username <$> us) ms) username
            = Some (Some t1)) as Hs1.
    { unfold stored_last_login. rewrite stored_update, Hu; simpl.
      by rewrite set_last_login_hit. }
    split; [done|]. intros t2 Hlt. eexists.
    rewrite updateLoginTimestamp_run, stored_update, Hu; simpl. split; [done|].
    assert (stored_last_login
              (Db (sql.set_last_login t2 username <$>
                     (sql.set_last_login t1 username <$> us)) ms) username
            = Some (Some t2)) as Hs2.
    { unfold stored_last_login. rewrite !stored_update, Hu; simpl.
      rewrite set_last_login_hit; [done|by rewrite set_last_login_username]. }
    split; [done|]. by exists t1, t2.
  - intros Hout now. rewrite updateLoginTimestamp_run, stored_is_None by done.
    rewrite set_last_login_absent by done. by destruct s.
Qed.

Lemma updateLoginTimestamp_sets_now_and_increases_witness :
  (∃ s1, User.updateLoginTimestamp 50 "bob" sample.store = (inr (), s1)
         ∧ stored_last_login s1 "bob" = Some (Some 50%Z)
         ∧ ∃ s2, User.updateLoginTimestamp 51 "bob" s1 = (inr (), s2)
                 ∧ stored_last_login s2 "bob" = Some (Some 51%Z))
  ∧ User.updateLoginTimestamp 50 "zed" sample.store
    = (inl (ExpressError "There is no user with username: zed" 404), sample.store).
Proof.
  destruct (updateLoginTimestamp_sets_now_and_increases sample.store "bob")
    as [Hknown _].
  destruct (updateLoginTimestamp_sets_now_and_increases sample.store "zed")
    as [_ Hunknown].
  split.
  - destruct (Hknown ltac:(compute_done) 50%Z) as (s1 & Hrun1 & Hs1 & Hnext).
    exists s1. split; [exact Hrun1|]. split; [exact Hs1|].
    destruct (Hnext 51%Z ltac:(lia)) as (s2 & Hrun2 & Hs2 & _).
    exists s2. split; [exact Hrun2|exact Hs2].
  - apply (Hunknown ltac:(compute_done) 50%Z).
Defined.

(** ** [User.all] *)

(** C7.  Whatever the table holds, [all()] succeeds, leaves the database as
    it was and returns exactly one record per row of [users], each made of
    that user's [first_name], [last_name] and [phone] and of nothing else (in
    particular it has no [password] property); the records come in ascending
    order of [first_name] for the collation of the database. *)
Theorem all_sorted_complete_without_password
    (collate : relation string) `{!RelDecision collate}
    (collate_total : Total collate) (collate_trans : Transitive collate) (s : db) :
  ∃ rows,
    User.all collate s = (inr rows, s)
    ∧ (∃ us, us ≡ₚ tbl_users s
             ∧ rows = (λ u, [("first_name", JStr (users.first_name u));
                             ("last_name", JStr (users.last_name u));
                             ("phone", JStr (users.phone u))]) <$> us)
    ∧ length rows = length (tbl_users s)
    ∧ StronglySorted (first_name_ascending collate) rows
    ∧ Forall (λ r, keys r = ["first_name"; "last_name"; "phone"]
                   ∧ own r "password" = None) rows.
Proof.
  eexists. split; [reflexivity|]. split; [|split; [|split]].
  - exists (merge_sort (sql.by_first_name collate) (tbl_users s)).
    split; [apply merge_sort_Permutation|done].
  - by rewrite length_fmap, merge_sort_Permutation.
  - apply (StronglySorted_fmap _ (sql.by_first_name collate)).
    + intros u v Huv. by exists (users.first_name u), (users.first_name v).
    + apply StronglySorted_merge_sort.
      * intros u v w. unfold sql.by_first_name. apply collate_trans.
      * intros u v. unfold sql.by_first_name. apply collate_total.
  - apply Forall_fmap, Forall_true. by intros u.
Qed.

Lemma all_sorted_complete_without_password_witness :
  ∃ rows,
    User.all String.le sample.store = (inr rows, sample.store)
    ∧ rows = [ [("first_name", JStr "Alice"); ("last_name", JStr "Liddell");
                ("phone", JStr "555-0100")];
               [("first_name", JStr "Bob"); ("last_name", JStr "Stone");
                ("phone", JStr "555-0101")];
               [("first_name", JStr "Carol"); ("last_name", JStr "Reed");
                ("phone", JStr "555-0102")] ]
    ∧ StronglySorted (first_name_ascending String.le) rows.
Proof.
  destruct (all_sorted_complete_without_password String.le String.le_total
              (@PreOrder_Transitive _ _ (@partial_order_pre _ _ String.le_po))
              sample.store)
    as (rows & Hrun & _ & _ & Hsorted & _).
  exists rows. split; [exact Hrun|]. split; [|exact Hsorted].
  vm_compute in Hrun. by injection Hrun as <-.
Defined.

(** ** [User.register] and [User.get] *)

Section register.
Context (BCRYPT_WORK_FACTOR : Z) (bcrypt_hash : string → Z → string → string).

Local Abbreviation registered := (registered BCRYPT_WORK_FACTOR bcrypt_hash).

Lemma register_fresh now salt b s :
  reg.username b ∉ usernames s →
  User.register BCRYPT_WORK_FACTOR bcrypt_hash now salt b s
  = (inr (Some [("username", JStr (reg.username b))]),
     Db (tbl_users s ++ [registered now salt b]) (tbl_messages s)).
Proof.
  intros Hfresh. unfold User.register, sql.insert_user, bind.
  by rewrite bool_decide_eq_false_2.
Qed.

Lemma register_taken now salt b s :
  reg.username b ∈ usernames s →
  User.register BCRYPT_WORK_FACTOR bcrypt_hash now salt b s
  = (inl (ConflictError "users_pkey"), s).
Proof.
  intros Htaken. unfold User.register, sql.insert_user, bind.
  by rewrite bool_decide_eq_true_2.
Qed.

(** A call either adds exactly the registered row or changes nothing. *)
Lemma register_inv now salt b s r s' :
  User.register BCRYPT_WORK_FACTOR bcrypt_hash now salt b s = (inr r, s') →
  (reg.username b ∉ usernames s)
  ∧ r = Some [("username", JStr (reg.username b))]
  ∧ s' = Db (tbl_users s ++ [registered now salt b]) (tbl_messages s).
Proof.
  destruct (decide (reg.username b ∈ usernames s)) as [Hin|Hout].
  - by rewrite register_taken.
  - rewrite register_fresh by done. by intros [= <- <-].
Qed.

Lemma stored_registered now salt b s :
  reg.username b ∉ usernames s →
  stored (Db (tbl_users s ++ [registered now salt b]) (tbl_messages s)) (reg.username b)
  = Some (registered now salt b).
Proof.
  intros Hfresh. unfold stored; simpl.
  rewrite filter_app, filter_username_absent by done.
  by rewrite filter_cons_True.
Qed.

(** The primary key and the foreign keys survive a registration. *)
Lemma register_wf now salt b s r s' :
  wf_db s →
  User.register BCRYPT_WORK_FACTOR bcrypt_hash now salt b s = (r, s') →
  wf_db s'.
Proof.
  intros Hwf. destruct (decide (reg.username b ∈ usernames s)) as [Hin|Hout].
  - rewrite register_taken by done. by intros [= _ <-].
  - rewrite register_fresh by done. intros [= _ <-].
    destruct Hwf as [Hu Hm Hf Ht]. split; unfold usernames in *; simpl.
    + rewrite fmap_app. apply NoDup_app. split; [done|]. split.
      * intros x Hx ?%list_elem_of_singleton. by subst.
      * apply NoDup_singleton.
    + done.
    + eapply Forall_impl; [exact Hf|]. intros m Hm'; simpl in *.
      rewrite fmap_app. apply elem_of_app. by left.
    + eapply Forall_impl; [exact Ht|]. intros m Hm'; simpl in *.
      rewrite fmap_app. apply elem_of_app. by left.
Qed.

End register.

Lemma get_stored username s :
  User.get username s =
  match stored s username with
  | Some u => (inr (Some (sql.profile u)), s)
  | None =>
      (inl (ExpressError ("There is no user with username " +:+ username) 404), s)
  end.
Proof.
  unfold User.get, sql.select_user, bind, stored; simpl.
  destruct (filter _ (tbl_users s)) as [|u l]; reflexivity.
Qed.



(** ** [User.messagesFrom] and [User.messagesTo] *)

Lemma join_elem on s m u :
  (m, u) ∈ sql.join on s ↔ m ∈ tbl_messages s ∧ u ∈ tbl_users s ∧ on m u = true.
Proof.
  unfold sql.join. rewrite list_elem_of_bind. split.
  - intros (m' & Hrow & Hm). apply list_elem_of_bind in Hrow as (u' & Hrow & Hu).
    destruct (on m' u') eqn:Hon; [|by apply elem_of_nil in Hrow].
    apply list_elem_of_singleton in Hrow as [= -> ->]. done.
  - intros (Hm & Hu & Hon). exists m. split; [|done].
    apply list_elem_of_bind. exists u. split; [|done].
    rewrite Hon. by apply list_elem_of_singleton.
Qed.

Lemma first_row_Some {A} (P : A → Prop) `{!∀ x, Decision (P x)} (l : list A) x :
  x ∈ l → P x → ∃ y, filter P l !! 0%nat = Some y ∧ y ∈ l ∧ P y.
Proof.
  intros Hin HP. assert (x ∈ filter P l) as Hx by by apply list_elem_of_filter.
  destruct (filter P l) as [|y k] eqn:Hf; [by apply elem_of_nil in Hx|].
  exists y. split; [done|].
  assert (y ∈ filter P l) as Hy by (rewrite Hf; left).
  apply list_elem_of_filter in Hy. tauto.
Qed.

Lemma first_row_None {A} (P : A → Prop) `{!∀ x, Decision (P x)} (l : list A) :
  (∀ x, x ∈ l → ¬ P x) → filter P l !! 0%nat = None.
Proof.
  intros Hnone. destruct (filter P l) as [|y k] eqn:Hf; [done|].
  assert (y ∈ filter P l) as Hy by (rewrite Hf; left).
  apply list_elem_of_filter in Hy as [HP Hin]. by destruct (Hnone y Hin).
Qed.

(** C9.  When no message of the table was sent by the username,
    [messagesFrom] does not return anything, empty or not: it throws "There
    are no messages from ..." with status 404; when no message of the table
    is addressed to the username, [messagesTo] throws "There are no messages
    to user with username: ..." with status 404.  The database is left as it
    was. *)
Theorem no_messages_is_404 (s : db) (username : string) :
  (Forall (λ m, messages.from_username m ≠ username) (tbl_messages s) →
   User.messagesFrom username s
   = (inl (ExpressError ("There are no messages from " +:+ username) 404), s))
  ∧ (Forall (λ m, messages.to_username m ≠ username) (tbl_messages s) →
     User.messagesTo username s
     = (inl (ExpressError
               ("There are no messages to user with username: " +:+ username) 404), s)).
Proof.
  split; intros Hnone; rewrite Forall_forall in Hnone.
  - unfold User.messagesFrom, sql.select_messages_from, bind; simpl.
    rewrite list_lookup_fmap, first_row_None; [done|].
    intros [m u] Hrow%join_elem; simpl. apply Hnone. tauto.
  - unfold User.messagesTo, sql.select_messages_to, bind; simpl.
    rewrite list_lookup_fmap, first_row_None; [done|].
    intros [m u] Hrow%join_elem; simpl. apply Hnone. tauto.
Qed.

Lemma no_messages_is_404_witness :
  User.messagesFrom "carol" sample.store
  = (inl (ExpressError "There are no messages from carol" 404), sample.store)
  ∧ User.messagesTo "carol" sample.store
    = (inl (ExpressError "There are no messages to user with username: carol" 404),
       sample.store).
Proof.
  destruct (no_messages_is_404 sample.store "carol") as [Hfrom Hto].
  split.
  - apply Hfrom. repeat constructor. compute_done.
  - apply Hto. repeat constructor. compute_done.
Defined.

(** Whoever has sent a message gets one record back, and the profile
    expanded in it, under [from_user], is the sender's own: the recipient
    appears nowhere in the record. *)
Lemma messagesFrom_expands_sender (s : db) (username : string) :
  wf_db s →
  (∃ m, m ∈ tbl_messages s ∧ messages.from_username m = username) →
  ∃ m u,
    m ∈ tbl_messages s ∧ messages.from_username m = username
    ∧ u ∈ tbl_users s ∧ users.username u = username
    ∧ User.messagesFrom username s
      = (inr [("id", JNum (messages.id m));
              ("from_user", JObj [("username", JStr username);
                                  ("first_name", JStr (users.first_name u));
                                  ("last_name", JStr (users.last_name u));
                                  ("phone", JStr (users.phone u))]);
              ("body", JStr (messages.body m));
              ("sent_at", JDate (messages.sent_at m));
              ("read_at", nullable_date (messages.read_at m))], s).
Proof.
  intros [_ _ Hfk _] (m & Hm & Hfrom).
  rewrite Forall_forall in Hfk.
  destruct (list_elem_of_fmap_1 _ _ _ (Hfk m Hm)) as (u & Hname & Hu).
  destruct (first_row_Some (λ mu, messages.from_username mu.1 = username)
              (sql.join (λ m u, bool_decide (messages.from_username m = users.username u)) s)
              (m, u)) as ([m' u'] & Hfirst & Hrow & Hsel); simpl in *.
  { apply join_elem. by rewrite bool_decide_eq_true. }
  { done. }
  apply join_elem in Hrow as (Hm' & Hu' & Hon%bool_decide_eq_true).
  exists m', u'. repeat (split; [done || congruence|]).
  unfold User.messagesFrom, sql.select_messages_from, bind; simpl.
  rewrite list_lookup_fmap, Hfirst; simpl. by rewrite <- Hsel.
Qed.

(** Whoever has received a message gets one record back, and the profile
    expanded in it, under [to_user], is the recipient's own, its [phone]
    being read from a column the statement does not select. *)
Lemma messagesTo_expands_recipient (s : db) (username : string) :
  wf_db s →
  (∃ m, m ∈ tbl_messages s ∧ messages.to_username m = username) →
  ∃ m u,
    m ∈ tbl_messages s ∧ messages.to_username m = username
    ∧ u ∈ tbl_users s ∧ users.username u = username
    ∧ User.messagesTo username s
      = (inr [("id", JNum (messages.id m));
              ("to_user", JObj [("username", JStr username);
                                ("first_name", JStr (users.first_name u));
                                ("last_name", JStr (users.last_name u));
                                ("phone", JUndefined)]);
              ("body", JStr (messages.body m));
              ("sent_at", JDate (messages.sent_at m));
              ("read_at", nullable_date (messages.read_at m))], s).
Proof.
  intros [_ _ _ Hfk] (m & Hm & Hto).
  rewrite Forall_forall in Hfk.
  destruct (list_elem_of_fmap_1 _ _ _ (Hfk m Hm)) as (u & Hname & Hu).
  destruct (first_row_Some (λ mu, messages.to_username mu.1 = username)
              (sql.join (λ m u, bool_decide (messages.to_username m = users.username u)) s)
              (m, u)) as ([m' u'] & Hfirst & Hrow & Hsel); simpl in *.
  { apply join_elem. by rewrite bool_decide_eq_true. }
  { done. }
  apply join_elem in Hrow as (Hm' & Hu' & Hon%bool_decide_eq_true).
  exists m', u'. repeat (split; [done || congruence|]).
  unfold User.messagesTo, sql.select_messages_to, bind; simpl.
  rewrite list_lookup_fmap, Hfirst; simpl. by rewrite <- Hsel.
Qed.

(** C5.  In the sample database alice has sent one message, to bob.
    [messagesFrom("alice")] returns that message with alice's own profile
    under [from_user] and nothing about bob; [messagesTo("bob")] returns it
    with bob's own profile under [to_user], its [phone] undefined, and
    nothing about alice. *)
Theorem messages_expand_the_queried_user :
  User.messagesFrom "alice" sample.store
  = (inr [("id", JNum 1);
          ("from_user", JObj [("username", JStr "alice");
                              ("first_name", JStr "Alice");
                              ("last_name", JStr "Liddell");
                              ("phone", JStr "555-0100")]);
          ("body", JStr "hello");
          ("sent_at", JDate 40);
          ("read_at", JNull)], sample.store)
  ∧ User.messagesTo "bob" sample.store
    = (inr [("id", JNum 1);
            ("to_user", JObj [("username", JStr "bob");
                              ("first_name", JStr "Bob");
                              ("last_name", JStr "Stone");
                              ("phone", JUndefined)]);
            ("body", JStr "hello");
            ("sent_at", JDate 40);
            ("read_at", JNull)], sample.store).
Proof. split; vm_compute; reflexivity. Qed.

(** ** [routes/messages.js] *)

Section message_routes.
Import messages_routes.
Context (ensureLoggedIn : request → option error).
Context (Message_get : Z → M obj).

(** Once past the middleware, [GET /:id] answers with whatever
    [Message.get] yields for the id: who is asking plays no part. *)
Lemma get_id_run req s :
  get_id ensureLoggedIn Message_get req s =
  match ensureLoggedIn req with
  | Some err => (Next err, s)
  | None =>
      match Message_get (params_id req) s with
      | (inl err, s') => (Next err, s')
      | (inr message, s') => (Json [("message", JObj message)], s')
      end
  end.
Proof.
  unfold get_id, guarded, try_catch, bind.
  destruct (ensureLoggedIn req); [done|].
  by destruct (Message_get (params_id req) s) as [[err|message] s'].
Qed.

Lemma get_id_ignores_caller req req' s :
  ensureLoggedIn req = None → ensureLoggedIn req' = None →
  params_id req = params_id req' →
  get_id ensureLoggedIn Message_get req s = get_id ensureLoggedIn Message_get req' s.
Proof. intros H H' Hid. by rewrite !get_id_run, H, H', Hid. Qed.

(** [POST /:id/read] never answers a request that is past the middleware
    and never touches the database. *)
Lemma post_id_read_run req s :
  post_id_read ensureLoggedIn req s =
  match ensureLoggedIn req with
  | Some err => (Next err, s)
  | None => (Unanswered, s)
  end.
Proof. unfold post_id_read, guarded. by destruct (ensureLoggedIn req). Qed.

End message_routes.

(** C1.  In the sample database message 1 goes from alice to bob.  Carol,
    logged in, asks for it with [GET /messages/1]: the handler answers with
    the whole message, not with an error. *)
Theorem get_id_answers_a_non_participant
    (ensureLoggedIn : messages_routes.request → option error) :
  ensureLoggedIn (sample.as_user "carol" 1) = None →
  messages_routes.get_id ensureLoggedIn Message.get (sample.as_user "carol" 1)
    sample.store
  = (Json [("message",
            JObj [("id", JNum 1);
                  ("body", JStr "hello");
                  ("sent_at", JDate 40);
                  ("read_at", JNull);
                  ("from_user", JObj [("username", JStr "alice");
                                      ("first_name", JStr "Alice");
                                      ("last_name", JStr "Liddell");
                                      ("phone", JStr "555-0100")]);
                  ("to_user", JObj [("username", JStr "bob");
                                    ("first_name", JStr "Bob");
                                    ("last_name", JStr "Stone");
                                    ("phone", JStr "555-0101")])])],
     sample.store).
Proof. intros Hpass. rewrite get_id_run, Hpass. vm_compute. reflexivity. Qed.

Lemma get_id_answers_a_non_participant_witness :
  ∃ message,
    messages_routes.get_id sample.logged_in Message.get (sample.as_user "carol" 1)
      sample.store
    = (Json [("message", JObj message)], sample.store)
    ∧ prop message "body" = JStr "hello".
Proof.
  eexists. split.
  - apply (get_id_answers_a_non_participant sample.logged_in). reflexivity.
  - reflexivity.
Defined.

(** C3.  In the sample database message 1 is addressed to bob and unread.
    Bob, logged in, posts to [/messages/1/read]: the handler sends no answer
    and the database is untouched, so [read_at] stays null.  Carol, who is
    not the recipient, gets no answer either, and no error. *)
Theorem post_id_read_is_empty
    (ensureLoggedIn : messages_routes.request → option error) :
  ensureLoggedIn (sample.as_user "bob" 1) = None →
  ensureLoggedIn (sample.as_user "carol" 1) = None →
  messages_routes.post_id_read ensureLoggedIn (sample.as_user "bob" 1) sample.store
  = (Unanswered, sample.store)
  ∧ messages.read_at <$> tbl_messages sample.store = [None]
  ∧ messages_routes.post_id_read ensureLoggedIn (sample.as_user "carol" 1) sample.store
    = (Unanswered, sample.store).
Proof.
  intros Hbob Hcarol. by rewrite !post_id_read_run, Hbob, Hcarol.
Qed.

Lemma post_id_read_is_empty_witness :
  messages_routes.post_id_read sample.logged_in (sample.as_user "bob" 1) sample.store
  = (Unanswered, sample.store)
  ∧ messages_routes.post_id_read sample.logged_in (sample.as_user "carol" 1) sample.store
    = (Unanswered, sample.store).
Proof.
  destruct (post_id_read_is_empty sample.logged_in eq_refl eq_refl)
    as (Hbob & _ & Hcarol).
  split; [exact Hbob|exact Hcarol].
Defined.

(** ** [routes/auth.js] *)

Section auth_routes.
Import auth_routes.
Context (BCRYPT_WORK_FACTOR : Z) (bcrypt_hash : string → Z → string → string).
Context (SECRET_KEY : string) (jwt_sign : obj → string → error + string).
Context (globals : obj).

Local Abbreviation registered := (registered BCRYPT_WORK_FACTOR bcrypt_hash).
Local Abbreviation register_route :=
  (post_register BCRYPT_WORK_FACTOR bcrypt_hash SECRET_KEY jwt_sign globals).

(** No scope of the [/register] handler binds [username]. *)
Lemma register_scope_lacks_username result b :
  own ([("result", result)] ++ handler_scope (register_req b)
         ++ module_scope SECRET_KEY) "username" = None.
Proof. reflexivity. Qed.

(** The whole course of [POST /register]: a taken username stops it at the
    insertion; otherwise the user is stored, and the claim of the token is
    whatever the global object holds under [username], the request's own
    username never being consulted. *)
Lemma post_register_run now_join now_login salt b s :
  register_route now_join now_login salt b s =
  if decide (reg.username b ∈ usernames s)
  then (Next (ConflictError "users_pkey"), s)
  else
    let s1 := Db (tbl_users s ++ [registered now_join salt b]) (tbl_messages s) in
    match own globals "username" with
    | None => (Next (ReferenceError "username is not defined"), s1)
    | Some claim =>
        match jwt_sign [("username", claim)] SECRET_KEY with
        | inl err => (Next err, s1)
        | inr token =>
            (Json [("token", JStr token)],
             Db (sql.set_last_login now_login (reg.username b) <$> tbl_users s1)
                (tbl_messages s1))
        end
    end.
Proof.
  unfold auth_routes.post_register, try_catch, bind.
  destruct (decide (reg.username b ∈ usernames s)) as [Htaken|Hfresh].
  - by rewrite register_taken.
  - rewrite register_fresh by done. unfold resolve.
    rewrite register_scope_lacks_username.
    destruct (own globals "username") as [claim|]; [|done].
    unfold ret, sign.
    destruct (jwt_sign [("username", claim)] SECRET_KEY) as [err|token]; [done|].
    unfold result_username, prop; simpl. unfold ret.
    rewrite updateLoginTimestamp_run.
    by rewrite (stored_registered _ _ _ _ _ _ Hfresh).
Qed.

End auth_routes.

(** C2.  Dave registers on the sample database, where his username is free,
    in a process whose global object has no [username] property.  The user
    is stored, but evaluating [{username}] throws "username is not defined":
    the handler hands that error to [next] and no token is returned. *)
Theorem post_register_throws_before_signing
    BCRYPT_WORK_FACTOR bcrypt_hash SECRET_KEY jwt_sign (globals : obj) :
  own globals "username" = None →
  auth_routes.post_register BCRYPT_WORK_FACTOR bcrypt_hash SECRET_KEY jwt_sign globals
    60 61 "salt" sample.dave sample.store
  = (Next (ReferenceError "username is not defined"),
     Db (tbl_users sample.store
           ++ [users.Row "dave" (bcrypt_hash "hunter2" BCRYPT_WORK_FACTOR "salt")
                 "Dave" "Hill" "555-0103" 60 None])
        (tbl_messages sample.store)).
Proof.
  intros Hglobal. rewrite post_register_run, Hglobal.
  rewrite decide_False; [reflexivity|]. compute_done.
Qed.

Lemma post_register_throws_before_signing_witness :
  fst (auth_routes.post_register 12 sample.hash "secret" sample.jwt_sign []
         60 61 "salt" sample.dave sample.store)
  = Next (ReferenceError "username is not defined").
Proof.
  rewrite (post_register_throws_before_signing 12 sample.hash "secret"
             sample.jwt_sign [] eq_refl).
  reflexivity.
Defined.

(** The sibling handler binds [username] by destructuring the body, and its
    token carries the username of the request. *)
Example post_login_signs_the_username :
  auth_routes.post_login sample.compare "secret" sample.jwt_sign [] 60
    (login.Body "alice" (JStr "wonderland")) sample.store
  = (Json [("token", JStr "alice.secret")],
     Db [sample.bob; sample.carol;
         users.Row "alice" "$2b$12$hash-of-wonderland" "Alice" "Liddell" "555-0100"
           10 (Some 60%Z)]
        [sample.hello]).
Proof. vm_compute. reflexivity. Qed.

(** C10.  Whenever [User.register] has stored the user and a later step of
    the handler of [POST /register] throws, be it the lookup of [username]
    or the signing of the token, the handler answers with that error and
    the database stays as the registration left it: the new row is still in
    [users] and [get] finds the user.  No answer with an error undoes the
    registration. *)
Theorem post_register_error_keeps_the_user
    BCRYPT_WORK_FACTOR bcrypt_hash SECRET_KEY jwt_sign (globals : obj)
    now_join now_login salt (b : reg.body) (s : db) result s1 :
  User.register BCRYPT_WORK_FACTOR bcrypt_hash now_join salt b s = (inr result, s1) →
  (own globals "username" = None →
   auth_routes.post_register BCRYPT_WORK_FACTOR bcrypt_hash SECRET_KEY jwt_sign globals
     now_join now_login salt b s
   = (Next (ReferenceError "username is not defined"), s1))
  ∧ (∀ claim err,
       own globals "username" = Some claim →
       jwt_sign [("username", claim)] SECRET_KEY = inl err →
       auth_routes.post_register BCRYPT_WORK_FACTOR bcrypt_hash SECRET_KEY jwt_sign globals
         now_join now_login salt b s
       = (Next err, s1))
  ∧ (∀ err s2,
       auth_routes.post_register BCRYPT_WORK_FACTOR bcrypt_hash SECRET_KEY jwt_sign globals
         now_join now_login salt b s
       = (Next err, s2) →
       s2 = s1)
  ∧ registered BCRYPT_WORK_FACTOR bcrypt_hash now_join salt b ∈ tbl_users s1
  ∧ User.get (reg.username b) s1
    = (inr (Some [("username", JStr (reg.username b));
                  ("first_name", JStr (reg.first_name b));
                  ("last_name", JStr (reg.last_name b));
                  ("phone", JStr (reg.phone b));
                  ("join_at", JDate now_join);
                  ("last_login_at", JNull)]), s1).
Proof.
  intros (Hfresh & _ & ->)%register_inv. rewrite post_register_run.
  rewrite decide_False by done. cbv zeta.
  split; [by intros ->|]. split; [by intros claim err -> ->|]. split; [|split].
  - intros err s2. destruct (own globals "username") as [claim|]; [|congruence].
    destruct (jwt_sign _ _); congruence.
  - simpl. apply elem_of_app. right. by apply list_elem_of_singleton.
  - by rewrite get_stored, stored_registered.
Qed.

Lemma post_register_error_keeps_the_user_witness :
  ∃ s1,
    auth_routes.post_register 12 sample.hash "secret" sample.jwt_sign []
      60 61 "salt" sample.dave sample.store
    = (Next (ReferenceError "username is not defined"), s1)
    ∧ auth_routes.post_register 12 sample.hash "secret" sample.jwt_sign
        [("username", JNum 7)] 60 61 "salt" sample.dave sample.store
      = (Next (JsError "payload"), s1)
    ∧ User.get "dave" s1
      = (inr (Some [("username", JStr "dave"); ("first_name", JStr "Dave");
                    ("last_name", JStr "Hill"); ("phone", JStr "555-0103");
                    ("join_at", JDate 60); ("last_login_at", JNull)]), s1).
Proof.
  destruct (post_register_error_keeps_the_user 12 sample.hash "secret" sample.jwt_sign []
              60 61 "salt" sample.dave sample.store _ _ eq_refl)
    as (Hlookup & _ & _ & _ & Hget).
  destruct (post_register_error_keeps_the_user 12 sample.hash "secret" sample.jwt_sign
              [("username", JNum 7)] 60 61 "salt" sample.dave sample.store _ _ eq_refl)
    as (_ & Hsign & _).
  eexists. split; [|split].
  - apply Hlookup. reflexivity.
  - apply (Hsign (JNum 7)); reflexivity.
  - exact Hget.
Defined.

(** * Further properties of the models and the routes *)

(** ** [POST /login] *)

Section login_route.
Context (bcrypt_compare : string → string → bool).
Context (SECRET_KEY : string) (jwt_sign : obj → string → error + string).
Context (globals : obj).

Local Abbreviation login_route :=
  (auth_routes.post_login bcrypt_compare SECRET_KEY jwt_sign globals).

(** The whole course of [POST /login], read on the first row the table holds
    for the username. *)
Lemma post_login_run now b s :
  login_route now b s =
  match stored s (login.username b) with
  | Some u =>
      match bcrypt_verdict bcrypt_compare (login.password b) (users.password u) with
      | inl err => (Next err, s)
      | inr true =>
          match jwt_sign [("username", JStr (login.username b))] SECRET_KEY with
          | inl err => (Next err, s)
          | inr token =>
              (Json [("token", JStr token)],
               Db (sql.set_last_login now (login.username b) <$> tbl_users s)
                  (tbl_messages s))
          end
      | inr false => (Next invalid_credentials, s)
      end
  | None => (Next invalid_credentials, s)
  end.
Proof.
  unfold auth_routes.post_login, try_catch, bind.
  rewrite authenticate_run.
  destruct (stored s (login.username b)) as [u|] eqn:Hu; [|done].
  destruct (bcrypt_verdict _ _ _) as [err|[|]]; [done| |done].
  unfold resolve; simpl. unfold ret, auth_routes.sign.
  destruct (jwt_sign _ _) as [err|token]; [done|].
  by rewrite updateLoginTimestamp_run, Hu.
Qed.

End login_route.

(** What an update of [last_login_at] leaves alone. *)
Lemma update_last_login_frame now username s :
  let s' := Db (sql.set_last_login now username <$> tbl_users s) (tbl_messages s) in
  usernames s' = usernames s
  ∧ tbl_messages s' = tbl_messages s
  ∧ ∀ x, x ≠ username → stored s' x = stored s x.
Proof.
  destruct s as [us ms]; simpl. split; [|split; [done|]].
  - unfold usernames; simpl. rewrite <- list_fmap_compose.
    apply list_fmap_ext. intros i u _; simpl. apply set_last_login_username.
  - intros x Hx. rewrite stored_update.
    destruct (stored (Db us ms) x) as [v|] eqn:Hv; [|done]; simpl.
    apply filter_username_head in Hv as [_ Hname].
    rewrite set_last_login_miss; [done|congruence].
Qed.

(** X1.  [POST /login] has two outcomes only.  Either it hands an error to
    [next] and the database is exactly as before, or it answers with a token
    that is [jwt.sign] of the payload whose single property is the username
    of the request, under the secret of the process; in that case the
    credentials were accepted by [authenticate], the user's [last_login_at]
    holds the time of the request, and the usernames, the messages and the
    rows of all other users are as before.  The request is never left
    unanswered. *)
Theorem post_login_token_or_untouched
    bcrypt_compare SECRET_KEY jwt_sign (globals : obj) now (b : login.body) (s : db) :
  (∃ err,
     auth_routes.post_login bcrypt_compare SECRET_KEY jwt_sign globals now b s
     = (Next err, s))
  ∨ (∃ token s',
       auth_routes.post_login bcrypt_compare SECRET_KEY jwt_sign globals now b s
       = (Json [("token", JStr token)], s')
       ∧ jwt_sign [("username", JStr (login.username b))] SECRET_KEY = inr token
       ∧ User.authenticate bcrypt_compare (login.username b) (login.password b) s
         = (inr true, s)
       ∧ stored_last_login s' (login.username b) = Some (Some now)
       ∧ usernames s' = usernames s
       ∧ tbl_messages s' = tbl_messages s
       ∧ ∀ x, x ≠ login.username b → stored s' x = stored s x).
Proof.
  rewrite post_login_run, authenticate_run.
  destruct (stored s (login.username b)) as [u|] eqn:Hu; [|by left; eexists].
  destruct (bcrypt_verdict _ _ _) as [err|[|]];
    [by left; eexists| |by left; eexists].
  destruct (jwt_sign _ _) as [err|token]; [by left; eexists|].
  right. eexists _, _. split; [done|]. split; [done|]. split; [done|].
  split; [|apply update_last_login_frame].
  destruct s as [us ms]; simpl in *.
  unfold stored_last_login. rewrite stored_update, Hu; simpl.
  rewrite set_last_login_hit; [done|].
  by apply filter_username_head in Hu as [_ ?].
Qed.

(** X2.  [POST /login] follows [authenticate].  When [authenticate] throws,
    the handler hands that very error to [next] and changes nothing.  When
    it returns [true] and the token is signed, the handler answers with the
    token and the user's [last_login_at] becomes the time of the request.
    When it returns [true] but [jwt.sign] throws, the error is handed to
    [next] and [last_login_at] is not touched, the signing coming first. *)
Theorem post_login_follows_authenticate
    bcrypt_compare SECRET_KEY jwt_sign (globals : obj) now (b : login.body) (s : db) :
  (∀ err,
     User.authenticate bcrypt_compare (login.username b) (login.password b) s
     = (inl err, s) →
     auth_routes.post_login bcrypt_compare SECRET_KEY jwt_sign globals now b s
     = (Next err, s))
  ∧ (User.authenticate bcrypt_compare (login.username b) (login.password b) s
     = (inr true, s) →
     (∀ token,
        jwt_sign [("username", JStr (login.username b))] SECRET_KEY = inr token →
        ∃ s',
          auth_routes.post_login bcrypt_compare SECRET_KEY jwt_sign globals now b s
          = (Json [("token", JStr token)], s')
          ∧ stored_last_login s' (login.username b) = Some (Some now))
     ∧ (∀ err,
          jwt_sign [("username", JStr (login.username b))] SECRET_KEY = inl err →
          auth_routes.post_login bcrypt_compare SECRET_KEY jwt_sign globals now b s
          = (Next err, s))).
Proof.
  rewrite post_login_run, authenticate_run.
  destruct (stored s (login.username b)) as [u|] eqn:Hu.
  - destruct (bcrypt_verdict _ _ _) as [rejected|[|]].
    + split; [by intros err [= <-]|done].
    + split; [done|]. intros _. split.
      * intros token ->. eexists. split; [done|].
        destruct s as [us ms]; simpl in *.
        unfold stored_last_login. rewrite stored_update, Hu; simpl.
        rewrite set_last_login_hit; [done|].
        by apply filter_username_head in Hu as [_ ?].
      * by intros err ->.
    + split; [by intros err [= <-]|done].
  - split; [by intros err [= <-]|done].
Qed.

Lemma post_login_follows_authenticate_witness :
  auth_routes.post_login sample.compare "secret" sample.jwt_sign [] 60
    (login.Body "alice" (JStr "builder")) sample.store
  = (Next (ExpressError "Invalid username/password" 400), sample.store)
  ∧ (∃ s',
       auth_routes.post_login sample.compare "secret" sample.jwt_sign [] 60
         (login.Body "alice" (JStr "wonderland")) sample.store
       = (Json [("token", JStr "alice.secret")], s')
       ∧ stored_last_login s' "alice" = Some (Some 60%Z))
  ∧ auth_routes.post_login sample.compare "secret" (λ _ _, inl (JsError "no key")) [] 60
      (login.Body "alice" (JStr "wonderland")) sample.store
    = (Next (JsError "no key"), sample.store).
Proof.
  destruct (post_login_follows_authenticate sample.compare "secret" sample.jwt_sign []
              60 (login.Body "alice" (JStr "builder")) sample.store) as [Hbad _].
  destruct (post_login_follows_authenticate sample.compare "secret" sample.jwt_sign []
              60 (login.Body "alice" (JStr "wonderland")) sample.store) as [_ Hgood].
  destruct (post_login_follows_authenticate sample.compare "secret"
              (λ _ _, inl (JsError "no key")) []
              60 (login.Body "alice" (JStr "wonderland")) sample.store) as [_ Hthrow].
  split; [|split].
  - apply Hbad. reflexivity.
  - apply Hgood; reflexivity.
  - apply Hthrow; reflexivity.
Defined.

(** ** The two statements that write to [users] *)

Lemma updateLoginTimestamp_snd now username s :
  snd (User.updateLoginTimestamp now username s)
  = Db (sql.set_last_login now username <$> tbl_users s) (tbl_messages s).
Proof. rewrite updateLoginTimestamp_run. by destruct (stored s username). Qed.

(** X3.  On a database that satisfies the constraints of the schema (both
    primary keys, both foreign keys of [messages]), a call of [register]
    and a call of [updateLoginTimestamp] each leave a database that still
    satisfies them, whether the call succeeds or throws. *)
Theorem writes_keep_the_constraints (s : db) :
  wf_db s →
  (∀ BCRYPT_WORK_FACTOR bcrypt_hash now salt (b : reg.body),
     wf_db (snd (User.register BCRYPT_WORK_FACTOR bcrypt_hash now salt b s)))
  ∧ (∀ now username, wf_db (snd (User.updateLoginTimestamp now username s))).
Proof.
  intros Hwf. split.
  - intros W h now salt b.
    destruct (User.register W h now salt b s) as [r s'] eqn:Hrun.
    eapply register_wf; [exact Hwf|exact Hrun].
  - intros now username. rewrite updateLoginTimestamp_snd.
    destruct (update_last_login_frame now username s) as (Hnames & Hmsgs & _).
    destruct Hwf as [Hu Hm Hf Ht]. split.
    + by rewrite Hnames.
    + done.
    + by rewrite Hnames.
    + by rewrite Hnames.
Qed.

Lemma writes_keep_the_constraints_witness :
  wf_db (snd (User.register 12 sample.hash 60 "salt" sample.dave sample.store))
  ∧ wf_db (snd (User.register 12 sample.hash 60 "salt"
                  (reg.Body "bob" "x" "Bobby" "Stein" "555-0000") sample.store))
  ∧ wf_db (snd (User.updateLoginTimestamp 50 "bob" sample.store)).
Proof.
  destruct (writes_keep_the_constraints sample.store sample_store_wf) as [Hreg Hupd].
  split; [apply Hreg|]. split; [apply Hreg|apply Hupd].
Defined.

(** X4.  [updateLoginTimestamp] writes one column of one user.  Whatever
    the username, the usernames of the table, the messages and the rows of
    all other users are the same after the call; the row of the username
    itself, when there is one, keeps its password, names, phone and
    [join_at] and gets the time of the call as [last_login_at]. *)
Theorem updateLoginTimestamp_writes_one_column now (username : string) (s : db) :
  usernames (snd (User.updateLoginTimestamp now username s)) = usernames s
  ∧ tbl_messages (snd (User.updateLoginTimestamp now username s)) = tbl_messages s
  ∧ (∀ x, x ≠ username →
          stored (snd (User.updateLoginTimestamp now username s)) x = stored s x)
  ∧ (∀ u, stored s username = Some u →
          stored (snd (User.updateLoginTimestamp now username s)) username
          = Some (users.Row username (users.password u) (users.first_name u)
                    (users.last_name u) (users.phone u) (users.join_at u) (Some now))).
Proof.
  rewrite updateLoginTimestamp_snd.
  destruct (update_last_login_frame now username s) as (Hnames & Hmsgs & Hothers).
  split; [done|]. split; [done|]. split; [done|].
  intros u Hu. destruct s as [us ms]; simpl in *.
  rewrite stored_update, Hu; simpl.
  apply filter_username_head in Hu as [_ Hname].
  unfold sql.set_last_login. rewrite bool_decide_eq_true_2 by done.
  by rewrite Hname.
Qed.

Lemma updateLoginTimestamp_writes_one_column_witness :
  stored (snd (User.updateLoginTimestamp 50 "bob" sample.store)) "alice"
  = Some sample.alice
  ∧ stored (snd (User.updateLoginTimestamp 50 "bob" sample.store)) "bob"
    = Some (users.Row "bob" "$2b$12$hash-of-builder" "Bob" "Stone" "555-0101" 20
              (Some 50%Z)).
Proof.
  destruct (updateLoginTimestamp_writes_one_column 50 "bob" sample.store)
    as (_ & _ & Hothers & Hself).
  split.
  - rewrite Hothers; [reflexivity|discriminate].
  - apply (Hself sample.bob). reflexivity.
Defined.

(** X5.  The last call wins: two calls of [updateLoginTimestamp] for the
    same username, made at any two times in either order, leave the
    database that the second call alone would have left. *)
Theorem updateLoginTimestamp_last_call_wins t1 t2 (username : string) (s : db) :
  snd (User.updateLoginTimestamp t2 username
         (snd (User.updateLoginTimestamp t1 username s)))
  = snd (User.updateLoginTimestamp t2 username s).
Proof.
  rewrite !updateLoginTimestamp_snd; simpl. f_equal.
  rewrite <- list_fmap_compose. apply list_fmap_ext. intros i u _; simpl.
  unfold sql.set_last_login at 2. case_bool_decide as Hu.
  - unfold sql.set_last_login; simpl. by rewrite !bool_decide_eq_true_2.
  - done.
Qed.

(** ** Registration seen from the other operations *)

Lemma stored_after_register BCRYPT_WORK_FACTOR bcrypt_hash now salt (b : reg.body) s x :
  reg.username b ∉ usernames s → x ≠ reg.username b →
  stored (Db (tbl_users s ++ [registered BCRYPT_WORK_FACTOR bcrypt_hash now salt b])
            (tbl_messages s)) x
  = stored s x.
Proof.
  intros Hfresh Hx. unfold stored; simpl.
  rewrite filter_app, filter_cons_False, filter_nil, app_nil_r; [done|].
  simpl. congruence.
Qed.

(** X6.  Registration and authentication round-trip.  Provided
    [bcrypt.compare] accepts the password against the hash that
    [bcrypt.hash] made of it, a user who registers under a free username
    can authenticate at once with the password given at registration. *)
Theorem register_then_authenticate
    BCRYPT_WORK_FACTOR bcrypt_hash bcrypt_compare now salt (b : reg.body) (s : db) :
  bcrypt_compare (reg.password b) (bcrypt_hash (reg.password b) BCRYPT_WORK_FACTOR salt)
  = true →
  reg.username b ∉ usernames s →
  ∃ result s1,
    User.register BCRYPT_WORK_FACTOR bcrypt_hash now salt b s = (inr result, s1)
    ∧ User.authenticate bcrypt_compare (reg.username b) (JStr (reg.password b)) s1
      = (inr true, s1).
Proof.
  intros Hverify Hfresh. eexists _, _. split; [by apply register_fresh|].
  rewrite authenticate_first_row.
  fold (stored (Db (tbl_users s ++ [registered BCRYPT_WORK_FACTOR bcrypt_hash now salt b])
                  (tbl_messages s)) (reg.username b)).
  rewrite stored_registered by done. simpl. by rewrite Hverify.
Qed.

Lemma register_then_authenticate_witness :
  ∃ result s1,
    User.register 12 sample.hash 60 "salt" sample.dave sample.store = (inr result, s1)
    ∧ User.authenticate sample.compare "dave" (JStr "hunter2") s1 = (inr true, s1).
Proof.
  apply (register_then_authenticate 12 sample.hash sample.compare 60 "salt"
           sample.dave sample.store); [reflexivity|compute_done].
Defined.

(** X7.  A registration concerns the new user only.  After a registration
    under a free username the messages are untouched, and for every other
    username [get] returns what it returned before and [authenticate]
    accepts and rejects the same passwords as before. *)
Theorem register_leaves_the_others
    BCRYPT_WORK_FACTOR bcrypt_hash bcrypt_compare now salt (b : reg.body) (s : db) :
  reg.username b ∉ usernames s →
  ∃ result s1,
    User.register BCRYPT_WORK_FACTOR bcrypt_hash now salt b s = (inr result, s1)
    ∧ tbl_messages s1 = tbl_messages s
    ∧ ∀ x, x ≠ reg.username b →
        fst (User.get x s1) = fst (User.get x s)
        ∧ ∀ password,
            fst (User.authenticate bcrypt_compare x password s1)
            = fst (User.authenticate bcrypt_compare x password s).
Proof.
  intros Hfresh. eexists _, _. split; [by apply register_fresh|]. split; [done|].
  intros x Hx.
  pose proof (stored_after_register BCRYPT_WORK_FACTOR bcrypt_hash now salt b s x
                Hfresh Hx) as Hsame.
  split.
  - rewrite !get_stored, Hsame. by destruct (stored s x).
  - intros password. rewrite !authenticate_run, Hsame.
    destruct (stored s x) as [u|]; [|done].
    by destruct (bcrypt_verdict _ _ _) as [err|[|]].
Qed.

Lemma register_leaves_the_others_witness :
  ∃ result s1,
    User.register 12 sample.hash 60 "salt" sample.dave sample.store = (inr result, s1)
    ∧ fst (User.get "bob" s1) = fst (User.get "bob" sample.store)
    ∧ fst (User.authenticate sample.compare "bob" (JStr "builder") s1) = inr true.
Proof.
  destruct (register_leaves_the_others 12 sample.hash sample.compare 60 "salt"
              sample.dave sample.store ltac:(compute_done))
    as (result & s1 & Hreg & _ & Hothers).
  exists result, s1. split; [exact Hreg|].
  destruct (Hothers "bob" ltac:(discriminate)) as [Hget Hauth].
  split; [exact Hget|]. rewrite Hauth. reflexivity.
Defined.

(** X8.  After a registration under a free username, [all()] lists one user
    more than before and the record made of the first name, the last name
    and the phone given at registration is among those it returns. *)
Theorem register_then_all
    BCRYPT_WORK_FACTOR bcrypt_hash (collate : relation string) `{!RelDecision collate}
    now salt (b : reg.body) (s : db) :
  reg.username b ∉ usernames s →
  ∃ result s1 rows,
    User.register BCRYPT_WORK_FACTOR bcrypt_hash now salt b s = (inr result, s1)
    ∧ User.all collate s1 = (inr rows, s1)
    ∧ length rows = S (length (tbl_users s))
    ∧ [("first_name", JStr (reg.first_name b));
       ("last_name", JStr (reg.last_name b));
       ("phone", JStr (reg.phone b))] ∈ rows.
Proof.
  intros Hfresh. eexists _, _, _. split; [by apply register_fresh|].
  split; [reflexivity|]. split.
  - rewrite length_fmap, merge_sort_Permutation; simpl.
    rewrite length_app; simpl. lia.
  - apply list_elem_of_fmap.
    exists (registered BCRYPT_WORK_FACTOR bcrypt_hash now salt b). split; [done|].
    rewrite merge_sort_Permutation; simpl.
    apply elem_of_app. right. by apply list_elem_of_singleton.
Qed.

Lemma register_then_all_witness :
  ∃ result s1 rows,
    User.register 12 sample.hash 60 "salt" sample.dave sample.store = (inr result, s1)
    ∧ User.all String.le s1 = (inr rows, s1)
    ∧ length rows = 4%nat
    ∧ [("first_name", JStr "Dave"); ("last_name", JStr "Hill");
       ("phone", JStr "555-0103")] ∈ rows.
Proof.
  apply (register_then_all 12 sample.hash String.le 60 "salt" sample.dave sample.store).
  compute_done.
Defined.

(** ** [User.get] *)

(** X9.  [get] never changes the database and has two outcomes only: for a
    username the table does not hold it throws "There is no user with
    username ..." with status 404; otherwise it returns one object made of
    the [username], [first_name], [last_name], [phone], [join_at] and
    [last_login_at] of a row of that username and of nothing else, so the
    password hash is never part of it. *)
Theorem get_profile_or_404 (username : string) (s : db) :
  ((username ∉ usernames s)
   ∧ User.get username s
     = (inl (ExpressError ("There is no user with username " +:+ username) 404), s))
  ∨ (∃ u, u ∈ tbl_users s ∧ users.username u = username
          ∧ User.get username s
            = (inr (Some [("username", JStr username);
                          ("first_name", JStr (users.first_name u));
                          ("last_name", JStr (users.last_name u));
                          ("phone", JStr (users.phone u));
                          ("join_at", JDate (users.join_at u));
                          ("last_login_at", nullable_date (users.last_login_at u))]),
               s)).
Proof.
  rewrite get_stored. destruct (stored s username) as [u|] eqn:Hu.
  - right. exists u. apply filter_username_head in Hu as [Hin Hname].
    split; [done|]. split; [done|]. unfold sql.profile. by rewrite Hname.
  - left. split; [|done]. intros Hin.
    apply stored_is_Some in Hin as (u & Hsome & _). congruence.
Qed.

(** X10.  What [updateLoginTimestamp] wrote is what [get] reads: after the
    call for a username the table holds, [get] returns that user's profile
    with the time of the call as [last_login_at] and every other property
    as the row had it. *)
Theorem updateLoginTimestamp_then_get now (username : string) (s : db) u :
  stored s username = Some u →
  ∃ s1,
    User.updateLoginTimestamp now username s = (inr (), s1)
    ∧ User.get username s1
      = (inr (Some [("username", JStr username);
                    ("first_name", JStr (users.first_name u));
                    ("last_name", JStr (users.last_name u));
                    ("phone", JStr (users.phone u));
                    ("join_at", JDate (users.join_at u));
                    ("last_login_at", JDate now)]), s1).
Proof.
  intros Hu. eexists. rewrite updateLoginTimestamp_run, Hu. split; [done|].
  rewrite get_stored. destruct s as [us ms]; simpl in *.
  rewrite stored_update, Hu; simpl.
  apply filter_username_head in Hu as [_ Hname].
  unfold sql.set_last_login. rewrite bool_decide_eq_true_2 by done.
  unfold sql.profile; simpl. by rewrite Hname.
Qed.

Lemma updateLoginTimestamp_then_get_witness :
  ∃ s1,
    User.updateLoginTimestamp 50 "alice" sample.store = (inr (), s1)
    ∧ User.get "alice" s1
      = (inr (Some [("username", JStr "alice"); ("first_name", JStr "Alice");
                    ("last_name", JStr "Liddell"); ("phone", JStr "555-0100");
                    ("join_at", JDate 10); ("last_login_at", JDate 50)]), s1).
Proof.
  apply (updateLoginTimestamp_then_get 50 "alice" sample.store sample.alice).
  reflexivity.
Defined.

(** ** [User.messagesFrom] and [User.messagesTo], whatever the tables hold *)

Lemma first_row_None_inv {A} (P : A → Prop) `{!∀ x, Decision (P x)} (l : list A) x :
  filter P l !! 0%nat = None → x ∈ l → ¬ P x.
Proof.
  intros Hnone Hin HP.
  destruct (first_row_Some P l x Hin HP) as (y & Hy & _). congruence.
Qed.

(** X11.  [messagesFrom] never changes the database and has two outcomes
    only.  Either it throws "There are no messages from ..." with status
    404, and then no message sent by the username has its sender in
    [users]; or it returns one single record, never a list, however many
    messages the username has sent: the [id], [body], [sent_at] and
    [read_at] of one of those messages, with the profile of the sender, that
    is of the username itself, under [from_user]. *)
Theorem messagesFrom_one_record_or_404 (username : string) (s : db) :
  (User.messagesFrom username s
   = (inl (ExpressError ("There are no messages from " +:+ username) 404), s)
   ∧ ∀ m, m ∈ tbl_messages s → messages.from_username m = username →
          username ∉ usernames s)
  ∨ (∃ m u,
       m ∈ tbl_messages s ∧ messages.from_username m = username
       ∧ u ∈ tbl_users s ∧ users.username u = username
       ∧ User.messagesFrom username s
         = (inr [("id", JNum (messages.id m));
                 ("from_user", JObj [("username", JStr username);
                                     ("first_name", JStr (users.first_name u));
                                     ("last_name", JStr (users.last_name u));
                                     ("phone", JStr (users.phone u))]);
                 ("body", JStr (messages.body m));
                 ("sent_at", JDate (messages.sent_at m));
                 ("read_at", nullable_date (messages.read_at m))], s)).
Proof.
  unfold User.messagesFrom, sql.select_messages_from, bind; simpl.
  rewrite list_lookup_fmap.
  destruct (filter _ (sql.join _ s) !! 0%nat) as [[m u]|] eqn:Hfirst; simpl.
  - right. apply list_elem_of_lookup_2, list_elem_of_filter in Hfirst as [Hsel Hrow].
    apply join_elem in Hrow as (Hm & Hu & Hon%bool_decide_eq_true). simpl in *.
    exists m, u. repeat (split; [done || congruence|]). by rewrite <- Hsel.
  - left. split; [done|]. intros m Hm Hfrom Hin.
    apply list_elem_of_fmap_1 in Hin as (u & Hname & Hu).
    eapply (first_row_None_inv _ _ (m, u) Hfirst); [|done].
    apply join_elem. rewrite bool_decide_eq_true. split; [done|]. split; [done|].
    congruence.
Qed.

(** X12.  [messagesTo] never changes the database and has two outcomes
    only.  Either it throws "There are no messages to user with username:
    ..." with status 404, and then no message addressed to the username has
    its recipient in [users]; or it returns one single record, never a list:
    the [id], [body], [sent_at] and [read_at] of one of the messages
    addressed to the username, with the username, first name and last name
    of the recipient, that is of the username itself, under [to_user], whose
    [phone] is always [undefined]. *)
Theorem messagesTo_one_record_or_404 (username : string) (s : db) :
  (User.messagesTo username s
   = (inl (ExpressError
             ("There are no messages to user with username: " +:+ username) 404), s)
   ∧ ∀ m, m ∈ tbl_messages s → messages.to_username m = username →
          username ∉ usernames s)
  ∨ (∃ m u,
       m ∈ tbl_messages s ∧ messages.to_username m = username
       ∧ u ∈ tbl_users s ∧ users.username u = username
       ∧ User.messagesTo username s
         = (inr [("id", JNum (messages.id m));
                 ("to_user", JObj [("username", JStr username);
                                   ("first_name", JStr (users.first_name u));
                                   ("last_name", JStr (users.last_name u));
                                   ("phone", JUndefined)]);
                 ("body", JStr (messages.body m));
                 ("sent_at", JDate (messages.sent_at m));
                 ("read_at", nullable_date (messages.read_at m))], s)).
Proof.
  unfold User.messagesTo, sql.select_messages_to, bind; simpl.
  rewrite list_lookup_fmap.
  destruct (filter _ (sql.join _ s) !! 0%nat) as [[m u]|] eqn:Hfirst; simpl.
  - right. apply list_elem_of_lookup_2, list_elem_of_filter in Hfirst as [Hsel Hrow].
    apply join_elem in Hrow as (Hm & Hu & Hon%bool_decide_eq_true). simpl in *.
    exists m, u. repeat (split; [done || congruence|]). by rewrite <- Hsel.
  - left. split; [done|]. intros m Hm Hto Hin.
    apply list_elem_of_fmap_1 in Hin as (u & Hname & Hu).
    eapply (first_row_None_inv _ _ (m, u) Hfirst); [|done].
    apply join_elem. rewrite bool_decide_eq_true. split; [done|]. split; [done|].
    congruence.
Qed.

(** ** The message routes, over any middleware and any Message model *)

(** X14.  The answer of [GET /:id] depends on the id and on the database
    only: two requests for the same id that the middleware lets through get
    the same answer, whoever sends them and whatever [Message.get] is. *)
Theorem get_id_answer_depends_on_the_id_only
    (ensureLoggedIn : messages_routes.request → option error)
    (Message_get : Z → M obj) (req req' : messages_routes.request) (s : db) :
  ensureLoggedIn req = None → ensureLoggedIn req' = None →
  messages_routes.params_id req = messages_routes.params_id req' →
  messages_routes.get_id ensureLoggedIn Message_get req s
  = messages_routes.get_id ensureLoggedIn Message_get req' s.
Proof.
  intros Hpass Hpass' Hid.
  unfold messages_routes.get_id, messages_routes.guarded.
  by rewrite Hpass, Hpass', Hid.
Qed.

Lemma get_id_answer_depends_on_the_id_only_witness :
  messages_routes.get_id sample.logged_in Message.get (sample.as_user "bob" 1)
    sample.store
  = messages_routes.get_id sample.logged_in Message.get (sample.as_user "carol" 1)
      sample.store.
Proof.
  apply (get_id_answer_depends_on_the_id_only sample.logged_in Message.get);
    reflexivity.
Defined.

(** X15.  In [POST /] the sender handed to [Message.create] is the
    [username] of [req.user] and nothing of the body but its [to_username]
    and [body] is used: two requests of the same user that agree on these
    two properties get the same answer, so a [from_username] put in the body
    changes nothing.  A request that is past the middleware without a
    [req.user] is answered with a [TypeError] and [Message.create] is not
    run. *)
Theorem post_message_sender_is_the_user
    (ensureLoggedIn : messages_routes.request → option error)
    (Message_create : jsval → jsval → jsval → M obj)
    (req req' : messages_routes.request) (s : db) :
  ensureLoggedIn req = None → ensureLoggedIn req' = None →
  (messages_routes.user req = messages_routes.user req' →
   prop (messages_routes.body req) "to_username"
   = prop (messages_routes.body req') "to_username" →
   prop (messages_routes.body req) "body" = prop (messages_routes.body req') "body" →
   messages_routes.post_message ensureLoggedIn Message_create req s
   = messages_routes.post_message ensureLoggedIn Message_create req' s)
  ∧ (∀ u, messages_routes.user req = Some u →
          messages_routes.post_message ensureLoggedIn Message_create req s
          = match Message_create (prop u "username")
                    (prop (messages_routes.body req) "to_username")
                    (prop (messages_routes.body req) "body") s with
            | (inl err, s') => (Next err, s')
            | (inr message, s') => (Json [("message", JObj message)], s')
            end)
  ∧ (messages_routes.user req = None →
     messages_routes.post_message ensureLoggedIn Message_create req s
     = (Next (TypeError "Cannot read properties of undefined (reading 'username')"), s)).
Proof.
  intros Hpass Hpass'.
  unfold messages_routes.post_message, messages_routes.guarded,
    messages_routes.user_username, try_catch, bind.
  rewrite Hpass, Hpass'. split; [|split].
  - by intros -> -> ->.
  - intros u ->. unfold ret.
    by destruct (Message_create _ _ _ s) as [[err|message] s'].
  - by intros ->.
Qed.

Lemma post_message_sender_is_the_user_witness :
  messages_routes.post_message sample.logged_in sample.create
    (messages_routes.Request (Some [("username", JStr "carol")]) 0
       [("from_username", JStr "alice"); ("to_username", JStr "bob");
        ("body", JStr "hi")]) sample.store
  = messages_routes.post_message sample.logged_in sample.create
      (messages_routes.Request (Some [("username", JStr "carol")]) 0
         [("to_username", JStr "bob"); ("body", JStr "hi")]) sample.store
  ∧ messages_routes.post_message sample.logged_in sample.create
      (messages_routes.Request (Some [("username", JStr "carol")]) 0
         [("from_username", JStr "alice"); ("to_username", JStr "bob");
          ("body", JStr "hi")]) sample.store
    = (Json [("message", JObj [("from_username", JStr "carol");
                               ("to_username", JStr "bob");
                               ("body", JStr "hi")])], sample.store).
Proof.
  destruct (post_message_sender_is_the_user sample.logged_in sample.create
              (messages_routes.Request (Some [("username", JStr "carol")]) 0
                 [("from_username", JStr "alice"); ("to_username", JStr "bob");
                  ("body", JStr "hi")])
              (messages_routes.Request (Some [("username", JStr "carol")]) 0
                 [("to_username", JStr "bob"); ("body", JStr "hi")])
              sample.store eq_refl eq_refl) as (Hsame & Hrun & _).
  split.
  - apply Hsame; reflexivity.
  - rewrite (Hrun [("username", JStr "carol")] eq_refl). reflexivity.
Defined.

(** ** [POST /register], whatever the request *)





(** X18.  A registration that was answered with an error has registered the
    user all the same.  In a process whose global object has no [username]
    property and with a [bcrypt.compare] that accepts a password against its
    own hash, [POST /register] under a free username answers "username is
    not defined", and a [POST /login] with the same username and password
    made afterwards is answered with the token signed for that username and
    records the time of the login. *)
Theorem post_register_error_then_login
    BCRYPT_WORK_FACTOR bcrypt_hash bcrypt_compare SECRET_KEY jwt_sign (globals : obj)
    now_join now_failed now_login salt (b : reg.body) (s : db) token :
  own globals "username" = None →
  reg.username b ∉ usernames s →
  bcrypt_compare (reg.password b) (bcrypt_hash (reg.password b) BCRYPT_WORK_FACTOR salt)
  = true →
  jwt_sign [("username", JStr (reg.username b))] SECRET_KEY = inr token →
  ∃ s1 s2,
    auth_routes.post_register BCRYPT_WORK_FACTOR bcrypt_hash SECRET_KEY jwt_sign globals
      now_join now_failed salt b s
    = (Next (ReferenceError "username is not defined"), s1)
    ∧ auth_routes.post_login bcrypt_compare SECRET_KEY jwt_sign globals now_login
        (login.Body (reg.username b) (JStr (reg.password b))) s1
      = (Json [("token", JStr token)], s2)
    ∧ stored_last_login s2 (reg.username b) = Some (Some now_login).
Proof.
  intros Hglobal Hfresh Hverify Hsign. eexists _, _.
  rewrite post_register_run, Hglobal, decide_False by done. cbv zeta.
  split; [done|].
  rewrite post_login_run; simpl.
  rewrite stored_registered by done; simpl. rewrite Hverify, Hsign.
  split; [done|].
  unfold stored_last_login. rewrite stored_update.
  rewrite stored_registered by done; simpl.
  by rewrite set_last_login_hit.
Qed.

Lemma post_register_error_then_login_witness :
  ∃ s1 s2,
    auth_routes.post_register 12 sample.hash "secret" sample.jwt_sign [] 60 61 "salt"
      sample.dave sample.store
    = (Next (ReferenceError "username is not defined"), s1)
    ∧ auth_routes.post_login sample.compare "secret" sample.jwt_sign [] 70
        (login.Body "dave" (JStr "hunter2")) s1
      = (Json [("token", JStr "dave.secret")], s2)
    ∧ stored_last_login s2 "dave" = Some (Some 70%Z).
Proof.
  apply (post_register_error_then_login 12 sample.hash sample.compare "secret"
           sample.jwt_sign [] 60 61 70 "salt" sample.dave sample.store "dave.secret");
    [reflexivity|compute_done|reflexivity|reflexivity].
Defined.
